(** * Build-target matrix of [rollup.config.ts]

    A shallow embedding of the Rollup configuration generator of the
    ranger repository ([src/rollup.config.ts]) and the properties of the
    four build descriptors it derives from one package declaration.

    Strings are [String.string]; a JS object literal whose key order is
    observable ([Object.keys (globals)]) is an association list; an optional
    object key is an [option]; the plugin factories of the external
    collaborators ([babel], [nodeResolve], [replace], [terser], [size],
    [visualizer]) are the constructors of [Plugin], each carrying the option
    object the source passes to it. *)

From Stdlib Require Import Strings.String Strings.Ascii Lists.List Bool Arith Lia.
Import ListNotations.

Local Open Scope list_scope.
Local Open Scope string_scope.

(** ** Text helpers *)

(** The line feed of a template literal that spans several lines. *)
Definition nl : string := String (ascii_of_nat 10) EmptyString.

(** The double-quote character that the template of [umdDevPlugin] puts on
    both sides of the mode. *)
Definition dq : string := String (ascii_of_nat 34) EmptyString.

(** [Array.prototype.includes] on an array of strings, searched with a
    string: SameValueZero on two strings is string equality. *)
Fixpoint includes (xs : list string) (x : string) : bool :=
  match xs with
  | [] => false
  | y :: ys => if String.eqb y x then true else includes ys x
  end.

(** [Object.keys] of an object literal with non-numeric string keys: the keys
    in insertion order. *)
Definition Object_keys {V : Type} (o : list (string * V)) : list string :=
  map fst o.

(** Number of positions of [s] at which [p] occurs (overlaps counted). *)
Fixpoint occurrences (p s : string) : nat :=
  match s with
  | EmptyString => if String.prefix p s then 1 else 0
  | String _ s' => (if String.prefix p s then 1 else 0) + occurrences p s'
  end.

(** ** Data model *)

(** [type Options] (lines 10-17). *)
Record Options : Type := mkOptions {
  input : string;
  packageDir : string;
  external : string -> bool;
  banner : string;
  jsName : string;
  outputFile : string
}.

(** The argument object of [buildConfigs] (lines 54-60). *)
Record PackageOpts : Type := mkPackageOpts {
  opts_packageDir : string;
  opts_name : string;
  opts_jsName : string;
  opts_outputFile : string;
  opts_entryFile : string
}.

(** The union type ['development' | 'production'] of [umdDevPlugin]. *)
Inductive EnvType : Type := development | production.

Definition EnvType_string (t : EnvType) : string :=
  match t with
  | development => "development"
  | production => "production"
  end.

(** A regular-expression literal, kept as its source text. *)
Inductive RegExp : Type := RegExpLit (source : string).

Record BabelOptions : Type := mkBabelOptions {
  babelHelpers : string;
  exclude : RegExp;
  babel_extensions : list string
}.

Record NodeResolveOptions : Type := mkNodeResolveOptions {
  extensions : list string
}.

(** The object given to [replace]: the keys that are not options of the
    plugin are the substitutions. *)
Record ReplaceOptions : Type := mkReplaceOptions {
  values : list (string * string);
  delimiters : string * string;
  preventAssignment : bool
}.

Record TerserOptions : Type := mkTerserOptions {
  mangle : bool;
  compress : bool
}.

Record VisualizerOptions : Type := mkVisualizerOptions {
  filename : string;
  json : option bool;
  gzipSize : option bool
}.

(** A plugin object, as the call that made it; [size] is only ever called
    with the empty options object. *)
Inductive Plugin : Type :=
| babel (o : BabelOptions)
| nodeResolve (o : NodeResolveOptions)
| replace (o : ReplaceOptions)
| terser (o : TerserOptions)
| size
| visualizer (o : VisualizerOptions).

(** The [output] object of a descriptor; a key the source does not write is
    [None]. *)
Record OutputOptions : Type := mkOutputOptions {
  format : string;
  sourcemap : bool;
  dir : option string;
  file : option string;
  out_name : option string;
  out_globals : option (list (string * string));
  preserveModules : option bool;
  exports : option string;
  out_banner : string
}.

(** The part of Rollup's [RollupOptions] that the source writes. *)
Record RollupOptions : Type := mkRollupOptions {
  ro_external : string -> bool;
  ro_input : string;
  ro_output : OutputOptions;
  ro_plugins : list Plugin
}.

(** ** Module-level constants *)

(** [const globals] (lines 19-25). *)
Definition globals : list (string * string) :=
  [ ("react", "React");
    ("solid-js", "Solid");
    ("solid-js/store", "SolidStore");
    ("react-dom", "ReactDOM");
    ("@tanstack/ranger-core", "RangerCore") ].

(** [const externals = Object.keys(globals)] (line 27). *)
Definition externals : list string := Object_keys globals.

(** [umdDevPlugin] (lines 29-34). *)
Definition umdDevPlugin (type : EnvType) : Plugin :=
  replace {|
    values := [("process.env.NODE_ENV", dq ++ EnvType_string type ++ dq)];
    delimiters := (EmptyString, EmptyString);
    preventAssignment := true
  |}.

(** [babelPlugin] (lines 36-40). *)
Definition babelPlugin : Plugin :=
  babel {|
    babelHelpers := "bundled";
    exclude := RegExpLit "node_modules";
    babel_extensions := [".ts"; ".tsx"; ".jsx"]
  |}.

(** [createBanner] (lines 181-192). *)
Definition createBanner (libraryName : string) : string :=
  "/**" ++ nl ++
  " * " ++ libraryName ++ nl ++
  " *" ++ nl ++
  " * Copyright (c) TanStack" ++ nl ++
  " *" ++ nl ++
  " * This source code is licensed under the MIT license found in the" ++ nl ++
  " * LICENSE.md file in the root directory of this source tree." ++ nl ++
  " *" ++ nl ++
  " * @license MIT" ++ nl ++
  " */".

(** ** The four target builders *)

(** [esm] (lines 79-92). *)
Definition esm (o : Options) : RollupOptions :=
  let '(mkOptions input packageDir external banner _ _) := o in
  {| ro_external := external;
     ro_input := input;
     ro_output := {|
       format := "esm";
       sourcemap := true;
       dir := Some (packageDir ++ "/build/esm");
       file := None;
       out_name := None;
       out_globals := None;
       preserveModules := None;
       exports := None;
       out_banner := banner |};
     ro_plugins :=
       [babelPlugin; nodeResolve {| extensions := [".ts"; ".tsx"; ".jsx"] |}] |}.

(** [cjs] (lines 94-109). *)
Definition cjs (o : Options) : RollupOptions :=
  let '(mkOptions input packageDir external banner _ _) := o in
  {| ro_external := external;
     ro_input := input;
     ro_output := {|
       format := "cjs";
       sourcemap := true;
       dir := Some (packageDir ++ "/build/cjs");
       file := None;
       out_name := None;
       out_globals := None;
       preserveModules := Some true;
       exports := Some "named";
       out_banner := banner |};
     ro_plugins :=
       [babelPlugin; nodeResolve {| extensions := [".ts"; ".tsx"; ".jsx"] |}] |}.

(** [umdDev] (lines 111-137); [outputFile] is destructured and not used. *)
Definition umdDev (o : Options) : RollupOptions :=
  let '(mkOptions input packageDir external banner jsName outputFile) := o in
  {| ro_external := external;
     ro_input := input;
     ro_output := {|
       format := "umd";
       sourcemap := true;
       dir := None;
       file := Some (packageDir ++ "/build/umd/index.development.js");
       out_name := Some jsName;
       out_globals := Some globals;
       preserveModules := None;
       exports := None;
       out_banner := banner |};
     ro_plugins :=
       [ babelPlugin;
         nodeResolve {| extensions := [".ts"; ".tsx"; ".jsx"] |};
         umdDevPlugin development ] |}.

(** [umdProd] (lines 139-179); [outputFile] is destructured and not used. *)
Definition umdProd (o : Options) : RollupOptions :=
  let '(mkOptions input packageDir external banner jsName outputFile) := o in
  {| ro_external := external;
     ro_input := input;
     ro_output := {|
       format := "umd";
       sourcemap := true;
       dir := None;
       file := Some (packageDir ++ "/build/umd/index.production.js");
       out_name := Some jsName;
       out_globals := Some globals;
       preserveModules := None;
       exports := None;
       out_banner := banner |};
     ro_plugins :=
       [ babelPlugin;
         nodeResolve {| extensions := [".ts"; ".tsx"; ".jsx"] |};
         umdDevPlugin production;
         terser {| mangle := true; compress := true |};
         size;
         visualizer {|
           filename := packageDir ++ "/build/stats-html.html";
           json := None;
           gzipSize := Some true |};
         visualizer {|
           filename := packageDir ++ "/build/stats-react.json";
           json := Some true;
           gzipSize := Some true |} ] |}.

(** ** [path.resolve]

    [buildConfigs] calls Node's [path.resolve], which is not part of the
    repository and reads the working directory of the process.  The
    generator is therefore stated over an arbitrary two-argument resolver
    (section [Generator]); [posix_resolve] is the POSIX behaviour of Node's
    function, used to run the generator on concrete declarations. *)

(** The segments of a path between its ['/'] characters. *)
Fixpoint split_slash (s : string) : list string :=
  match s with
  | EmptyString => [EmptyString]
  | String c s' =>
      if Ascii.eqb c "/"%char then EmptyString :: split_slash s'
      else match split_slash s' with
           | [] => [String c EmptyString]
           | seg :: segs => String c seg :: segs
           end
  end.

(** One segment of [normalizeString]; the stack holds the kept segments,
    last one first. *)
Definition normalize_step (allowAboveRoot : bool) (stack : list string)
    (seg : string) : list string :=
  if String.eqb seg EmptyString then stack
  else if String.eqb seg "." then stack
  else if String.eqb seg ".." then
    match stack with
    | [] => if allowAboveRoot then [".."] else []
    | top :: rest =>
        if String.eqb top ".."
        then (if allowAboveRoot then ".." :: stack else stack)
        else rest
    end
  else seg :: stack.

Definition normalizeString (path : string) (allowAboveRoot : bool) : string :=
  String.concat "/"
    (rev (fold_left (normalize_step allowAboveRoot) (split_slash path) [])).

Definition starts_with_slash (p : string) : bool :=
  match p with
  | String c _ => Ascii.eqb c "/"%char
  | EmptyString => false
  end.

(** The right-to-left loop of [resolve]: empty arguments are skipped and the
    loop stops at the first absolute one. *)
Fixpoint resolve_loop (args_rev : list string) (resolvedPath : string)
    : string * bool :=
  match args_rev with
  | [] => (resolvedPath, false)
  | p :: ps =>
      if String.eqb p EmptyString then resolve_loop ps resolvedPath
      else
        let r := p ++ "/" ++ resolvedPath in
        if starts_with_slash p then (r, true) else resolve_loop ps r
  end.

Definition posix_resolve (cwd : string) (args : list string) : string :=
  let '(resolvedPath, resolvedAbsolute) :=
    resolve_loop (rev (cwd :: args)) EmptyString in
  let normalized := normalizeString resolvedPath (negb resolvedAbsolute) in
  if resolvedAbsolute then "/" ++ normalized
  else if String.eqb normalized EmptyString then "." else normalized.

(** ** Outcome of a call *)

(** The one error class the specification names. *)
Inductive Error : Type := MisconfiguredPackage.

(** How a call ends: with a value, or by throwing. *)
Inductive Completion (A : Type) : Type :=
| Normal (a : A)
| Throw (e : Error).

Arguments Normal {A} a.
Arguments Throw {A} e.

(** ** Stages of a pipeline *)

Definition is_transpile (p : Plugin) : bool :=
  match p with babel _ => true | _ => false end.

Definition is_moduleResolve (p : Plugin) : bool :=
  match p with nodeResolve _ => true | _ => false end.

Definition is_environmentReplace (p : Plugin) : bool :=
  match p with replace _ => true | _ => false end.

Definition is_minify (p : Plugin) : bool :=
  match p with terser _ => true | _ => false end.

Definition is_analyze (p : Plugin) : bool :=
  match p with visualizer _ => true | _ => false end.

(** Every stage of kind [P] stands at a smaller index than every stage of
    kind [Q]. *)
Definition precedes (P Q : Plugin -> bool) (l : list Plugin) : Prop :=
  forall i j p q,
    nth_error l i = Some p -> nth_error l j = Some q ->
    P p = true -> Q q = true -> i < j.

(** The same, computed: no [P] at or after a [Q]. *)
Fixpoint precedesb (P Q : Plugin -> bool) (l : list Plugin) : bool :=
  match l with
  | [] => true
  | x :: r => (negb (Q x) || negb (existsb P l)) && precedesb P Q r
  end.

(** The replacement mode a [replace] plugin injects for
    [process.env.NODE_ENV], when it is one of the two modes. *)
Definition replace_mode (p : Plugin) : option EnvType :=
  match p with
  | replace o =>
      match values o with
      | [(k, v)] =>
          if String.eqb k "process.env.NODE_ENV" then
            if String.eqb v (dq ++ "development" ++ dq) then Some development
            else if String.eqb v (dq ++ "production" ++ dq) then Some production
            else None
          else None
      | _ => None
      end
  | _ => None
  end.

(** The four targets of the specification. *)
Inductive Target : Type := ESM | CJS | UMD_DEV | UMD_PROD.

(** The target a descriptor builds, read off its [output.format] and, for
    the two UMD bundles, off the mode of its environment replacement. *)
Definition target_of (d : RollupOptions) : option Target :=
  let f := format (ro_output d) in
  if String.eqb f "esm" then Some ESM
  else if String.eqb f "cjs" then Some CJS
  else if String.eqb f "umd" then
    match flat_map (fun p => match replace_mode p with
                             | Some m => [m] | None => [] end) (ro_plugins d) with
    | [development] => Some UMD_DEV
    | [production] => Some UMD_PROD
    | _ => None
    end
  else None.

(** ** Characters of a string *)

(** How many times the character [c] occurs in [s]. *)
Fixpoint count_char (c : ascii) (s : string) : nat :=
  match s with
  | EmptyString => 0
  | String a s' => (if Ascii.eqb a c then 1 else 0) + count_char c s'
  end.

(** The index of the first [c] in [s]. *)
Fixpoint index_char (c : ascii) (s : string) : option nat :=
  match s with
  | EmptyString => None
  | String a s' =>
      if Ascii.eqb a c then Some 0
      else match index_char c s' with
           | Some i => Some (S i)
           | None => None
           end
  end.

(** ** The specification's wording, for comparison *)

(** The header of section 6 of the specification, line by line, with its two
    placeholders. *)
Definition spec_banner (packageDisplayName organization : string) : string :=
  String.concat nl
    [ "/**";
      " * " ++ packageDisplayName;
      " *";
      " * Copyright (c) " ++ organization;
      " *";
      " * This source code is licensed under the MIT license found in the";
      " * LICENSE.md file in the root directory of this source tree.";
      " *";
      " * @license MIT";
      " */" ].

(** The UMD-PROD pipeline as section 4.2 of the specification lists it: six
    stages, the html report without a gzip-size option. *)
Definition spec_umdProd_pipeline (packageDirectory : string) : list Plugin :=
  [ babelPlugin;
    nodeResolve {| extensions := [".ts"; ".tsx"; ".jsx"] |};
    umdDevPlugin production;
    terser {| mangle := true; compress := true |};
    visualizer {|
      filename := packageDirectory ++ "/build/stats-html.html";
      json := None;
      gzipSize := None |};
    visualizer {|
      filename := packageDirectory ++ "/build/stats-react.json";
      json := Some true;
      gzipSize := Some true |} ].

(** ** Concrete declarations *)

(** The object literal [rollup] passes to [buildConfigs] (lines 45-49). *)
Definition ranger_core : PackageOpts :=
  {| opts_name := "ranger-core";
     opts_packageDir := "packages/ranger-core";
     opts_jsName := "RangerCore";
     opts_outputFile := "ranger-core";
     opts_entryFile := "src/index.jsx" |}.

(** [ranger_core] with an empty entry file. *)
Definition ranger_core_no_entry : PackageOpts :=
  {| opts_name := "ranger-core";
     opts_packageDir := "packages/ranger-core";
     opts_jsName := "RangerCore";
     opts_outputFile := "ranger-core";
     opts_entryFile := EmptyString |}.

(** [ranger_core] with another output base name. *)
Definition ranger_core_renamed : PackageOpts :=
  {| opts_name := "ranger-core";
     opts_packageDir := "packages/ranger-core";
     opts_jsName := "RangerCore";
     opts_outputFile := "index";
     opts_entryFile := "src/index.jsx" |}.

(** A package whose banner name and global symbol name are both [MIT]. *)
Definition mit_package : PackageOpts :=
  {| opts_name := "MIT";
     opts_packageDir := "packages/mit";
     opts_jsName := "MIT";
     opts_outputFile := "mit";
     opts_entryFile := "src/index.ts" |}.

(** [path.resolve] of a process whose working directory is [/repo]. *)
Definition resolve_in_repo (a b : string) : string :=
  posix_resolve "/repo" [a; b].

(** ** The generator *)

Section Generator.

(** [path.resolve], applied to two arguments. *)
Variable path_resolve : string -> string -> string.

(** [buildConfigs] (lines 54-77). *)
Definition buildConfigs (opts : PackageOpts) : list RollupOptions :=
  let input := path_resolve (opts_packageDir opts) (opts_entryFile opts) in
  let externalDeps := externals in
  let external := fun moduleName => includes externalDeps moduleName in
  let banner := createBanner (opts_name opts) in
  let options :=
    mkOptions input (opts_packageDir opts) external banner
              (opts_jsName opts) (opts_outputFile opts) in
  [esm options; cjs options; umdDev options; umdProd options].

(** [rollup] (lines 42-52): the spread of one [buildConfigs] result into a
    fresh array; the parameter is not read. *)
Definition rollup (options : RollupOptions) : list RollupOptions :=
  buildConfigs ranger_core ++ [].

(** [buildConfigs] as a call: its body has no [throw] and no test of its
    argument; it evaluates its statements in order and returns the array.
    [path.resolve] throws only on an argument that is not a string, which
    the type of the declaration excludes. *)
Definition buildConfigs_call (opts : PackageOpts)
    : Completion (list RollupOptions) :=
  Normal (buildConfigs opts).

End Generator.

(** ** Reading a descriptor *)

(** The paths a descriptor names: its output directory or file, and the
    report files of its [visualizer] stages. *)
Definition named_paths (d : RollupOptions) : list string :=
  (match dir (ro_output d) with Some p => [p] | None => [] end) ++
  (match file (ro_output d) with Some p => [p] | None => [] end) ++
  flat_map (fun p => match p with
                     | visualizer o => [filename o]
                     | _ => []
                     end) (ro_plugins d).

(** A descriptor with the banner of its output blanked. *)
Definition without_banner (d : RollupOptions) : RollupOptions :=
  {| ro_external := ro_external d;
     ro_input := ro_input d;
     ro_output := {|
       format := format (ro_output d);
       sourcemap := sourcemap (ro_output d);
       dir := dir (ro_output d);
       file := file (ro_output d);
       out_name := out_name (ro_output d);
       out_globals := out_globals (ro_output d);
       preserveModules := preserveModules (ro_output d);
       exports := exports (ro_output d);
       out_banner := EmptyString |};
     ro_plugins := ro_plugins d |}.

(** A descriptor with the global symbol name of its output removed. *)
Definition without_name (d : RollupOptions) : RollupOptions :=
  {| ro_external := ro_external d;
     ro_input := ro_input d;
     ro_output := {|
       format := format (ro_output d);
       sourcemap := sourcemap (ro_output d);
       dir := dir (ro_output d);
       file := file (ro_output d);
       out_name := None;
       out_globals := out_globals (ro_output d);
       preserveModules := preserveModules (ro_output d);
       exports := exports (ro_output d);
       out_banner := out_banner (ro_output d) |};
     ro_plugins := ro_plugins d |}.

(** The three stage kinds that only some targets have, as a descriptor has
    them: environment replacement, minify, analyze. *)
Definition optional_stages (d : RollupOptions) : bool * bool * bool :=
  (existsb is_environmentReplace (ro_plugins d),
   existsb is_minify (ro_plugins d),
   existsb is_analyze (ro_plugins d)).

(** The token that closes a block comment. *)
Definition comment_end : string := "*/".

(** Whether [s] is not empty and starts with [c]. *)
Definition first_is (c : ascii) (s : string) : bool :=
  match s with
  | String a _ => Ascii.eqb a c
  | EmptyString => false
  end.

(** Whether [s] is not empty and ends with [c]. *)
Fixpoint last_is (c : ascii) (s : string) : bool :=
  match s with
  | EmptyString => false
  | String a EmptyString => Ascii.eqb a c
  | String _ s' => last_is c s'
  end.

(** The text [createBanner] puts before the library name, and the text it
    puts after it. *)
Definition banner_head : string := "/**" ++ nl ++ " * ".

Definition banner_rest : string :=
  nl ++ " *" ++ nl ++
  " * Copyright (c) TanStack" ++ nl ++
  " *" ++ nl ++
  " * This source code is licensed under the MIT license found in the" ++ nl ++
  " * LICENSE.md file in the root directory of this source tree." ++ nl ++
  " *" ++ nl ++
  " * @license MIT" ++ nl ++
  " */".

(** ** More concrete declarations *)

(** [ranger_core] under another package name. *)
Definition ranger_core_other_name : PackageOpts :=
  {| opts_name := "@tanstack/ranger";
     opts_packageDir := "packages/ranger-core";
     opts_jsName := "RangerCore";
     opts_outputFile := "ranger-core";
     opts_entryFile := "src/index.jsx" |}.

(** [ranger_core] under another global symbol name. *)
Definition ranger_core_other_jsName : PackageOpts :=
  {| opts_name := "ranger-core";
     opts_packageDir := "packages/ranger-core";
     opts_jsName := "Ranger";
     opts_outputFile := "ranger-core";
     opts_entryFile := "src/index.jsx" |}.

(** [ranger_core] with another entry file. *)
Definition ranger_core_other_entry : PackageOpts :=
  {| opts_name := "ranger-core";
     opts_packageDir := "packages/ranger-core";
     opts_jsName := "RangerCore";
     opts_outputFile := "ranger-core";
     opts_entryFile := "src/main.tsx" |}.

(** * Properties *)

(** ** Strings *)

Lemma append_assoc (a b c : string) : (a ++ b) ++ c = a ++ b ++ c.
Proof. induction a as [|x a IH]; simpl; [reflexivity | now rewrite IH]. Qed.

Lemma prefix_cons_inv (a b : ascii) (p t : string) :
  String.prefix (String a p) (String b t) = true ->
  a = b /\ String.prefix p t = true.
Proof.
  simpl. destruct (ascii_dec a b) as [->|]; [auto | discriminate].
Qed.

Lemma prefix_cons_same (a : ascii) (p t : string) :
  String.prefix (String a p) (String a t) = String.prefix p t.
Proof.
  simpl. destruct (ascii_dec a a) as [_|n]; [reflexivity | now destruct n].
Qed.

Lemma prefix_nil (t : string) : String.prefix EmptyString t = true.
Proof. now destruct t. Qed.

Lemma prefix_append (p s : string) : String.prefix p (p ++ s) = true.
Proof.
  induction p as [|a p IH]; simpl append.
  - apply prefix_nil.
  - now rewrite prefix_cons_same.
Qed.

Lemma count_char_append (c : ascii) (u s : string) :
  count_char c (u ++ s) = count_char c u + count_char c s.
Proof. induction u as [|a u IH]; simpl; [reflexivity | rewrite IH; lia]. Qed.

Lemma prefix_count_char (c : ascii) (p : string) :
  forall t, String.prefix p t = true -> count_char c p <= count_char c t.
Proof.
  induction p as [|a p IH]; intros t H; [simpl; lia|].
  destruct t as [|b t]; [discriminate|].
  apply prefix_cons_inv in H as [<- H]. simpl.
  specialize (IH t H). lia.
Qed.

Lemma prefix_index_char (c : ascii) (p : string) :
  forall t i, String.prefix p t = true ->
    index_char c p = Some i -> index_char c t = Some i.
Proof.
  induction p as [|a p IH]; intros t i H Hi; [discriminate|].
  destruct t as [|b t]; [discriminate|].
  apply prefix_cons_inv in H as [<- H]. simpl in *.
  destruct (Ascii.eqb a c); [assumption|].
  destruct (index_char c p) as [k|]; [|discriminate].
  now rewrite (IH t k H eq_refl).
Qed.

Lemma count_char_cons_absent (c a : ascii) (u : string) :
  count_char c (String a u) = 0 -> Ascii.eqb a c = false /\ count_char c u = 0.
Proof. simpl. destruct (Ascii.eqb a c); [discriminate | auto]. Qed.

Lemma index_char_first (c : ascii) (u s : string) :
  count_char c u = 0 ->
  index_char c (u ++ String c s) = Some (String.length u).
Proof.
  induction u as [|a u IH]; intros H; simpl.
  - now rewrite Ascii.eqb_refl.
  - apply count_char_cons_absent in H as [-> H]. now rewrite IH.
Qed.

(** A character of [s] splits it at its first occurrence. *)
Lemma count_char_split (c : ascii) (s : string) :
  0 < count_char c s ->
  exists u v, s = u ++ String c v /\ count_char c u = 0.
Proof.
  induction s as [|a s IH]; simpl; [lia|]. intros H.
  destruct (Ascii.eqb a c) eqn:E.
  - apply Ascii.eqb_eq in E as ->. now exists EmptyString, s.
  - destruct (IH H) as (u & v & -> & Hu). exists (String a u), v.
    simpl. rewrite E. auto.
Qed.

(** ** Occurrences of a pattern *)

(** No occurrence in a text with fewer [c] than the pattern. *)
Lemma occurrences_few (c : ascii) (p : string) :
  forall t, count_char c t < count_char c p -> occurrences p t = 0.
Proof.
  assert (P : forall t, count_char c t < count_char c p ->
                        String.prefix p t = false).
  { intros t H. destruct (String.prefix p t) eqn:E; [|reflexivity].
    apply (prefix_count_char c) in E. lia. }
  induction t as [|a t IH]; intros H.
  - unfold occurrences. now rewrite (P _ H).
  - cbn [occurrences]. rewrite (P _ H). rewrite IH; [reflexivity|].
    simpl in H. lia.
Qed.

(** No occurrence that starts inside the pattern's own stretch before its
    first [c], past the start of the pattern. *)
Lemma occurrences_shifted (c : ascii) (p : string) (i : nat) (r : string) :
  index_char c p = Some i -> count_char c r < count_char c p ->
  forall u, count_char c u = 0 -> String.length u < i ->
    occurrences p (u ++ String c r) = 0.
Proof.
  intros Hi Hr.
  assert (P : forall u, count_char c u = 0 -> String.length u < i ->
                        String.prefix p (u ++ String c r) = false).
  { intros u Hu Hl. destruct (String.prefix p _) eqn:E; [|reflexivity].
    apply (prefix_index_char c _ _ i) in E; [|assumption].
    rewrite index_char_first in E by assumption. injection E. lia. }
  induction u as [|a u IH]; intros Hu Hl;
    pose proof (P _ Hu Hl) as Q; simpl append in *; cbn [occurrences];
    rewrite Q.
  - now rewrite (occurrences_few c).
  - apply count_char_cons_absent in Hu as [_ Hu].
    simpl in Hl. rewrite IH; [reflexivity | assumption | lia].
Qed.

Lemma length_append (a b : string) :
  String.length (a ++ b) = String.length a + String.length b.
Proof. induction a as [|x a IH]; simpl; [reflexivity | now rewrite IH]. Qed.

Lemma append_middle (pre u v s : string) (c : ascii) :
  pre ++ (u ++ String c v) ++ s = (pre ++ u) ++ String c (v ++ s).
Proof. now rewrite !append_assoc. Qed.

(** No occurrence starts in the text before the pattern when that text has
    no [c]. *)
Lemma occurrences_skip (c : ascii) (u v s : string) :
  count_char c u = 0 ->
  forall pre, count_char c pre = 0 ->
    occurrences (u ++ String c v) (pre ++ (u ++ String c v) ++ s)
    = occurrences (u ++ String c v) ((u ++ String c v) ++ s).
Proof.
  intros Hu. induction pre as [|a pre IH]; intros Hpre; [reflexivity|].
  change (String a pre ++ (u ++ String c v) ++ s)
    with (String a (pre ++ (u ++ String c v) ++ s)).
  cbn [occurrences].
  destruct (String.prefix _ (String a _)) eqn:E.
  - exfalso.
    apply (prefix_index_char c _ _ (String.length u)) in E;
      [|now apply index_char_first].
    change (String a (pre ++ (u ++ String c v) ++ s))
      with (String a pre ++ (u ++ String c v) ++ s) in E.
    rewrite append_middle, index_char_first in E
      by (rewrite count_char_append, Hpre, Hu; reflexivity).
    injection E. rewrite length_append. simpl. lia.
  - apply count_char_cons_absent in Hpre as [_ Hpre]. now rewrite IH.
Qed.

(** A pattern with a character that the text around it lacks occurs once. *)
Lemma occurrences_once (c : ascii) (p pre suf : string) :
  0 < count_char c p -> count_char c pre = 0 -> count_char c suf = 0 ->
  occurrences p (pre ++ p ++ suf) = 1.
Proof.
  intros Hp Hpre Hsuf.
  destruct (count_char_split c p Hp) as (u & v & -> & Hu).
  rewrite (occurrences_skip c u v suf Hu pre Hpre).
  assert (Hc : count_char c (v ++ suf) < count_char c (u ++ String c v)).
  { rewrite !count_char_append, Hu, Hsuf. simpl.
    rewrite Ascii.eqb_refl. lia. }
  pose proof (index_char_first c u v Hu) as Hi.
  pose proof (prefix_append (u ++ String c v) suf) as Hp0.
  destruct u as [|a u].
  - simpl append in *. cbn [occurrences]. rewrite Hp0.
    now rewrite (occurrences_few c).
  - rewrite (append_assoc (String a u)) in *.
    change (String a u ++ String c v ++ suf)
      with (String a (u ++ String c (v ++ suf))) in *.
    cbn [occurrences]. rewrite Hp0.
    apply count_char_cons_absent in Hu as [_ Hu'].
    rewrite (occurrences_shifted c _ _ (v ++ suf) Hi Hc u Hu');
      [reflexivity | simpl; lia].
Qed.

(** The pattern occurs where it was put. *)
Lemma occurrences_present (p suf : string) :
  forall pre, 1 <= occurrences p (pre ++ p ++ suf).
Proof.
  induction pre as [|a pre IH].
  - simpl append. pose proof (prefix_append p suf) as H.
    destruct (p ++ suf); cbn [occurrences]; rewrite H; lia.
  - simpl append. cbn [occurrences]. lia.
Qed.

(** ** Lists *)

Lemma includes_In (xs : list string) (x : string) :
  includes xs x = true <-> In x xs.
Proof.
  induction xs as [|y ys IH]; simpl.
  - split; [discriminate | contradiction].
  - destruct (String.eqb_spec y x) as [->|N].
    + split; auto.
    + rewrite IH. split; [auto | intros [E|H]; [contradiction | assumption]].
Qed.

Lemma precedesb_correct (P Q : Plugin -> bool) (l : list Plugin) :
  precedesb P Q l = true -> precedes P Q l.
Proof.
  induction l as [|x r IH]; intros H i j p q Hi Hj Pp Qq.
  - destruct i; discriminate.
  - cbn [precedesb] in H. apply andb_true_iff in H as [Hx Hr].
    destruct j as [|j].
    + injection Hj as <-. rewrite Qq in Hx. simpl orb in Hx.
      apply negb_true_iff in Hx.
      assert (E : existsb P (x :: r) = true).
      { apply existsb_exists. exists p. split; [|assumption].
        now apply nth_error_In with i. }
      cbn [existsb] in Hx, E. congruence.
    + destruct i as [|i]; [lia|].
      apply -> Nat.succ_lt_mono. now apply (IH Hr i j p q).
Qed.

(** ** The descriptors of a package *)

Section GeneratorProperties.

Variable path_resolve : string -> string -> string.

(** C1. For every package declaration [buildConfigs] returns exactly four
    descriptors, one per target and in the order ESM, CJS, UMD-DEV,
    UMD-PROD (formats [esm], [cjs], [umd], [umd]), and each of them has for
    entry the one path [path.resolve (packageDir, entryFile)]. *)
Theorem buildConfigs_four_targets (opts : PackageOpts) :
  List.length (buildConfigs path_resolve opts) = 4 /\
  map target_of (buildConfigs path_resolve opts)
    = [Some ESM; Some CJS; Some UMD_DEV; Some UMD_PROD] /\
  map (fun d => format (ro_output d)) (buildConfigs path_resolve opts)
    = ["esm"; "cjs"; "umd"; "umd"] /\
  map ro_input (buildConfigs path_resolve opts)
    = repeat (path_resolve (opts_packageDir opts) (opts_entryFile opts)) 4.
Proof. repeat split; reflexivity. Qed.

(** C2. On each of the four descriptors of a package, the [external]
    predicate answers true for a module name exactly when that name is one
    of the declared peer-dependency identifiers (equality of whole strings);
    every other name is answered false. *)
Theorem external_iff_peer_dependency
    (opts : PackageOpts) (d : RollupOptions) (moduleName : string) :
  In d (buildConfigs path_resolve opts) ->
  (ro_external d moduleName = true <-> In moduleName (Object_keys globals)) /\
  (~ In moduleName (Object_keys globals) -> ro_external d moduleName = false).
Proof.
  intros Hd.
  assert (E : ro_external d moduleName = includes externals moduleName).
  { simpl in Hd. destruct Hd as [<-|[<-|[<-|[<-|[]]]]]; reflexivity. }
  rewrite E. split.
  - apply includes_In.
  - intros N. destruct (includes externals moduleName) eqn:I; [|reflexivity].
    apply includes_In in I. contradiction.
Qed.

(** C3, as the code has it. [buildConfigs] validates nothing: for every
    declaration, also one whose entry file, name or output base name is
    empty, the call returns normally with four descriptors, all with the
    entry path [path.resolve (packageDir, entryFile)]; no
    MisconfiguredPackage error is raised. *)
Theorem buildConfigs_call_returns (opts : PackageOpts) :
  exists ds,
    buildConfigs_call path_resolve opts = Normal ds /\
    List.length ds = 4 /\
    Forall (fun d => ro_input d
                     = path_resolve (opts_packageDir opts) (opts_entryFile opts))
           ds.
Proof.
  exists (buildConfigs path_resolve opts). repeat split.
  repeat constructor.
Qed.

(** C4, as the code has it. The pipeline of the UMD-PROD descriptor is the
    seven stages [babel], [nodeResolve], [replace] with mode production,
    [terser] with mangle and compress, [size], the html [visualizer] report
    with gzip size, and the json [visualizer] report with gzip size. *)
Theorem umdProd_pipeline_exact (opts : PackageOpts) :
  nth_error (map ro_plugins (buildConfigs path_resolve opts)) 3
  = Some
      [ babel {| babelHelpers := "bundled";
                 exclude := RegExpLit "node_modules";
                 babel_extensions := [".ts"; ".tsx"; ".jsx"] |};
        nodeResolve {| extensions := [".ts"; ".tsx"; ".jsx"] |};
        replace {| values := [("process.env.NODE_ENV",
                               dq ++ "production" ++ dq)];
                   delimiters := (EmptyString, EmptyString);
                   preventAssignment := true |};
        terser {| mangle := true; compress := true |};
        size;
        visualizer {|
          filename := opts_packageDir opts ++ "/build/stats-html.html";
          json := None;
          gzipSize := Some true |};
        visualizer {|
          filename := opts_packageDir opts ++ "/build/stats-react.json";
          json := Some true;
          gzipSize := Some true |} ].
Proof. reflexivity. Qed.

(** C5, as the code has it. The four descriptors of a package carry the same
    banner, [createBanner name]; it is the header of section 6 with the
    declaration's [name] (not the UMD global symbol name) as title and
    TanStack as organization; [name] occurs in it at least once, and exactly
    once when [name] has a character that the fixed text of the header
    lacks. *)
Theorem banner_shared_and_exact (opts : PackageOpts) :
  map (fun d => out_banner (ro_output d)) (buildConfigs path_resolve opts)
    = repeat (createBanner (opts_name opts)) 4 /\
  createBanner (opts_name opts) = spec_banner (opts_name opts) "TanStack" /\
  1 <= occurrences (opts_name opts) (createBanner (opts_name opts)) /\
  (forall c : ascii,
      0 < count_char c (opts_name opts) ->
      count_char c (createBanner EmptyString) = 0 ->
      occurrences (opts_name opts) (createBanner (opts_name opts)) = 1).
Proof.
  pose (head := "/**" ++ nl ++ " * ").
  pose (rest := nl ++ " *" ++ nl ++ " * Copyright (c) TanStack" ++ nl ++
                " *" ++ nl ++
                " * This source code is licensed under the MIT license found in the"
                ++ nl ++
                " * LICENSE.md file in the root directory of this source tree."
                ++ nl ++ " *" ++ nl ++ " * @license MIT" ++ nl ++ " */").
  assert (B : forall n, createBanner n = head ++ n ++ rest) by reflexivity.
  repeat split.
  - rewrite B. apply occurrences_present.
  - intros c Hc H0. rewrite B in H0 |- *.
    rewrite !count_char_append in H0.
    apply (occurrences_once c); [assumption | lia | lia].
Qed.

(** C6, as the code has it. The ESM descriptor writes to the directory
    [<packageDir>/build/esm] with sourcemaps and sets no [preserveModules]
    (it asks for no file per source module); the CJS descriptor writes to
    [<packageDir>/build/cjs] with [preserveModules] true, named exports and
    sourcemaps. *)
Theorem esm_cjs_output (opts : PackageOpts) :
  map ro_output (firstn 2 (buildConfigs path_resolve opts))
  = [ {| format := "esm";
         sourcemap := true;
         dir := Some (opts_packageDir opts ++ "/build/esm");
         file := None;
         out_name := None;
         out_globals := None;
         preserveModules := None;
         exports := None;
         out_banner := createBanner (opts_name opts) |};
      {| format := "cjs";
         sourcemap := true;
         dir := Some (opts_packageDir opts ++ "/build/cjs");
         file := None;
         out_name := None;
         out_globals := None;
         preserveModules := Some true;
         exports := Some "named";
         out_banner := createBanner (opts_name opts) |} ].
Proof. reflexivity. Qed.

(** C7. In the UMD-PROD pipeline of every package the environment
    replacement stands after the transpile and module-resolve stages and
    before the minify stage, and the minify stage stands before both analyze
    stages; each of these stages is there, the analyze stage twice. *)
Theorem umdProd_stage_order (opts : PackageOpts) :
  exists pipeline,
    nth_error (map ro_plugins (buildConfigs path_resolve opts)) 3
      = Some pipeline /\
    precedes is_transpile is_environmentReplace pipeline /\
    precedes is_moduleResolve is_environmentReplace pipeline /\
    precedes is_environmentReplace is_minify pipeline /\
    precedes is_minify is_analyze pipeline /\
    map (fun P => List.length (filter P pipeline))
        [is_transpile; is_moduleResolve; is_environmentReplace; is_minify;
         is_analyze]
      = [1; 1; 1; 1; 2].
Proof.
  eexists. split; [reflexivity|].
  repeat split; apply precedesb_correct; reflexivity.
Qed.

(** C8. The keys of [globals] are exactly the names the classifier of every
    descriptor treats as external, all four descriptors carry the one
    classifier, and the UMD-DEV and UMD-PROD descriptors both carry
    [globals] as the globals mapping of their output. *)
Theorem globals_keys_are_externals (opts : PackageOpts) (moduleName : string) :
  map ro_external (buildConfigs path_resolve opts)
    = repeat (fun m => includes (Object_keys globals) m) 4 /\
  (includes (Object_keys globals) moduleName = true
   <-> In moduleName (map fst globals)) /\
  map (fun d => out_globals (ro_output d))
      (skipn 2 (buildConfigs path_resolve opts))
    = [Some globals; Some globals].
Proof.
  repeat split; try reflexivity; apply includes_In.
Qed.

(** C9. [rollup] does not read its argument: any two arguments give the same
    list, the four descriptors of the ranger-core declaration. *)
Theorem rollup_ignores_options (options1 options2 : RollupOptions) :
  rollup path_resolve options1 = rollup path_resolve options2 /\
  rollup path_resolve options1 = buildConfigs path_resolve ranger_core /\
  List.length (rollup path_resolve options1) = 4.
Proof.
  unfold rollup. rewrite app_nil_r. repeat split.
Qed.

(** C10. Two declarations that agree on every field but [outputFile] have
    the same list of descriptors. *)
Theorem outputFile_irrelevant (opts1 opts2 : PackageOpts) :
  opts_packageDir opts1 = opts_packageDir opts2 ->
  opts_name opts1 = opts_name opts2 ->
  opts_jsName opts1 = opts_jsName opts2 ->
  opts_entryFile opts1 = opts_entryFile opts2 ->
  buildConfigs path_resolve opts1 = buildConfigs path_resolve opts2.
Proof.
  intros Hd Hn Hj He. unfold buildConfigs.
  rewrite Hd, Hn, Hj, He. reflexivity.
Qed.

End GeneratorProperties.

(** ** The ranger-core package, in a process started in [/repo] *)

(** The scenario of the specification: four descriptors, the ESM directory,
    the UMD-PROD file and global name, and the classification of two
    names. *)
Example ranger_core_scenario :
  map (fun d => (ro_input d, dir (ro_output d), file (ro_output d),
                 out_name (ro_output d),
                 ro_external d "solid-js", ro_external d "left-pad"))
      (rollup resolve_in_repo (esm (mkOptions EmptyString EmptyString
                                     (fun _ => false) EmptyString
                                     EmptyString EmptyString)))
  = [ ("/repo/packages/ranger-core/src/index.jsx",
       Some "packages/ranger-core/build/esm", None, None, true, false);
      ("/repo/packages/ranger-core/src/index.jsx",
       Some "packages/ranger-core/build/cjs", None, None, true, false);
      ("/repo/packages/ranger-core/src/index.jsx",
       None, Some "packages/ranger-core/build/umd/index.development.js",
       Some "RangerCore", true, false);
      ("/repo/packages/ranger-core/src/index.jsx",
       None, Some "packages/ranger-core/build/umd/index.production.js",
       Some "RangerCore", true, false) ].
Proof. reflexivity. Qed.

(** A name that only starts with, or is only part of, a peer dependency is
    not external. *)
Example external_is_exact :
  map (fun m => includes externals m)
      ["react"; "react/jsx-runtime"; "reac"; "solid-js/store"; "solid-js/web";
       "@tanstack/ranger-core"; "ranger-core"; EmptyString]
  = [true; false; false; true; false; true; false; false].
Proof. reflexivity. Qed.

(** Witness of C2: the UMD-DEV descriptor of ranger-core and the name
    [react-dom]. *)
Lemma external_iff_peer_dependency_witness :
  In (umdDev (mkOptions "/repo/packages/ranger-core/src/index.jsx"
                "packages/ranger-core" (fun m => includes externals m)
                (createBanner "ranger-core") "RangerCore" "ranger-core"))
     (buildConfigs resolve_in_repo ranger_core) /\
  (includes externals "react-dom" = true
   <-> In "react-dom" (Object_keys globals)).
Proof.
  assert (H : In (umdDev (mkOptions "/repo/packages/ranger-core/src/index.jsx"
                "packages/ranger-core" (fun m => includes externals m)
                (createBanner "ranger-core") "RangerCore" "ranger-core"))
     (buildConfigs resolve_in_repo ranger_core)).
  { right. right. left. reflexivity. }
  split; [exact H|].
  exact (proj1 (external_iff_peer_dependency resolve_in_repo ranger_core _
                  "react-dom" H)).
Defined.

(** Counterexample to C3: with an empty entry file the call returns four
    descriptors and throws nothing. *)
Lemma buildConfigs_empty_entryFile_returns :
  opts_entryFile ranger_core_no_entry = EmptyString /\
  buildConfigs_call resolve_in_repo ranger_core_no_entry
    <> Throw MisconfiguredPackage /\
  (exists ds, buildConfigs_call resolve_in_repo ranger_core_no_entry
              = Normal ds /\
              map ro_input ds = repeat "/repo/packages/ranger-core" 4).
Proof.
  split; [reflexivity|]. split; [discriminate|].
  eexists. split; reflexivity.
Qed.

(** Counterexample to C4: the UMD-PROD pipeline of ranger-core is not the six
    stages of the specification; it has seven, the fifth is [size], and the
    html report asks for the gzip size. *)
Lemma umdProd_pipeline_not_spec :
  nth_error (map ro_plugins (buildConfigs resolve_in_repo ranger_core)) 3
    <> Some (spec_umdProd_pipeline (opts_packageDir ranger_core)) /\
  (exists pipeline,
     nth_error (map ro_plugins (buildConfigs resolve_in_repo ranger_core)) 3
       = Some pipeline /\
     List.length pipeline = 7 /\
     nth_error pipeline 4 = Some size /\
     nth_error pipeline 5
       = Some (visualizer
                 {| filename := "packages/ranger-core/build/stats-html.html";
                    json := None;
                    gzipSize := Some true |})).
Proof.
  split; [discriminate|].
  eexists. repeat split.
Qed.

(** Counterexample to C5: the banner of ranger-core does not contain the
    display name [RangerCore]; and for a package whose name and display name
    are both [MIT] the banner contains it three times. *)
Lemma banner_display_name_not_once :
  map (fun d => occurrences (opts_jsName ranger_core) (out_banner (ro_output d)))
      (buildConfigs resolve_in_repo ranger_core)
    = [0; 0; 0; 0] /\
  opts_name mit_package = opts_jsName mit_package /\
  map (fun d => occurrences (opts_jsName mit_package) (out_banner (ro_output d)))
      (buildConfigs resolve_in_repo mit_package)
    = [3; 3; 3; 3].
Proof. repeat split. Qed.

(** Witness of C5: [ranger-core] has a hyphen, the fixed text has none. *)
Lemma banner_shared_and_exact_witness :
  0 < count_char "-"%char (opts_name ranger_core) /\
  count_char "-"%char (createBanner EmptyString) = 0 /\
  occurrences (opts_name ranger_core) (createBanner (opts_name ranger_core)) = 1.
Proof.
  assert (H1 : 0 < count_char "-"%char (opts_name ranger_core))
    by (simpl; lia).
  assert (H2 : count_char "-"%char (createBanner EmptyString) = 0)
    by reflexivity.
  split; [exact H1|]. split; [exact H2|].
  exact (proj2 (proj2 (proj2
           (banner_shared_and_exact resolve_in_repo ranger_core)))
           "-"%char H1 H2).
Defined.

(** Counterexample to C6: the ESM descriptor of ranger-core has no
    [preserveModules]. *)
Lemma esm_not_preserveModules :
  map (fun d => preserveModules (ro_output d))
      (firstn 1 (buildConfigs resolve_in_repo ranger_core))
    = [None] /\
  map (fun d => preserveModules (ro_output d))
      (firstn 1 (buildConfigs resolve_in_repo ranger_core))
    <> [Some true].
Proof. split; [reflexivity | discriminate]. Qed.

(** Witness of C10: ranger-core with the output base names [ranger-core] and
    [index]. *)
Lemma outputFile_irrelevant_witness :
  opts_outputFile ranger_core <> opts_outputFile ranger_core_renamed /\
  buildConfigs resolve_in_repo ranger_core
  = buildConfigs resolve_in_repo ranger_core_renamed.
Proof.
  split; [discriminate|].
  apply (outputFile_irrelevant resolve_in_repo ranger_core ranger_core_renamed);
    reflexivity.
Defined.

(** * Further properties of the generator *)

(** ** Cancellation for [++] *)

Lemma append_inv_head (p a b : string) : p ++ a = p ++ b -> a = b.
Proof.
  induction p as [|x p IH]; simpl; intros H; [assumption|].
  injection H as H. auto.
Qed.

Lemma append_inv_tail (s : string) :
  forall a b, a ++ s = b ++ s -> a = b.
Proof.
  assert (L : forall x a, String x a ++ s <> s).
  { intros x a E. apply (f_equal String.length) in E.
    rewrite length_append in E. simpl in E. lia. }
  induction a as [|x a IH]; intros [|y b] H; simpl in H.
  - reflexivity.
  - exfalso. now apply (L y b).
  - exfalso. now apply (L x a).
  - injection H as -> H. now rewrite (IH b H).
Qed.

(** ** The comment terminator across a concatenation *)

Lemma occurrences_pair_empty (c1 c2 : ascii) :
  occurrences (String c1 (String c2 EmptyString)) EmptyString = 0.
Proof. reflexivity. Qed.

Lemma prefix_cons_diff (a b : ascii) (p t : string) :
  a <> b -> String.prefix (String a p) (String b t) = false.
Proof.
  intros N. simpl. destruct (ascii_dec a b); [contradiction | reflexivity].
Qed.

Lemma prefix_pair (c1 c2 a : ascii) (t : string) :
  String.prefix (String c1 (String c2 EmptyString)) (String a t)
  = Ascii.eqb a c1 && first_is c2 t.
Proof.
  destruct (ascii_dec c1 a) as [<-|N].
  - rewrite prefix_cons_same, Ascii.eqb_refl.
    destruct t as [|b t]; [reflexivity|]. cbn [first_is andb].
    destruct (ascii_dec c2 b) as [<-|M].
    + now rewrite prefix_cons_same, prefix_nil, Ascii.eqb_refl.
    + rewrite (prefix_cons_diff _ _ _ _ M).
      symmetry. apply Ascii.eqb_neq. congruence.
  - rewrite (prefix_cons_diff _ _ _ _ N).
    assert (E : Ascii.eqb a c1 = false) by (apply Ascii.eqb_neq; congruence).
    now rewrite E.
Qed.

(** Occurrences of a two-character pattern in [n ++ s]: those of [n], those
    of [s], and one more when the pattern lies across the joint. *)
Lemma occurrences_pair_append (c1 c2 : ascii) (s : string) :
  forall n,
    occurrences (String c1 (String c2 EmptyString)) (n ++ s)
    = occurrences (String c1 (String c2 EmptyString)) n
      + occurrences (String c1 (String c2 EmptyString)) s
      + (if last_is c1 n && first_is c2 s then 1 else 0).
Proof.
  induction n as [|a n IH].
  - simpl append. rewrite occurrences_pair_empty. simpl. lia.
  - change (String a n ++ s) with (String a (n ++ s)).
    cbn [occurrences]. rewrite IH, !prefix_pair.
    destruct n as [|y n].
    + simpl append. cbn [first_is last_is andb].
      rewrite andb_false_r.
      destruct (Ascii.eqb a c1 && first_is c2 s); simpl; lia.
    + change (String y n ++ s) with (String y (n ++ s)).
      cbn [first_is]. change (last_is c1 (String a (String y n)))
        with (last_is c1 (String y n)).
      lia.
Qed.

(** ** The parts of the banner *)

Lemma createBanner_parts (libraryName : string) :
  createBanner libraryName = banner_head ++ libraryName ++ banner_rest.
Proof. reflexivity. Qed.

(** Prefixing all members of a list of distinct strings keeps them
    distinct. *)
Lemma NoDup_map_append (p : string) (l : list string) :
  NoDup l -> NoDup (map (fun s => p ++ s) l).
Proof.
  induction 1 as [|x l Hx _ IH]; simpl; constructor; [|assumption].
  intros Hin. apply in_map_iff in Hin as (y & E & Hy).
  apply append_inv_head in E. now subst y.
Qed.

Section MoreGeneratorProperties.

Variable path_resolve : string -> string -> string.

(** ** The banner *)

(** X1. [createBanner] is injective: two different library names never get
    the same banner. *)
Theorem createBanner_injective (name1 name2 : string) :
  name1 <> name2 -> createBanner name1 <> createBanner name2.
Proof.
  intros N E. apply N. rewrite !createBanner_parts in E.
  apply append_inv_head in E. now apply append_inv_tail in E.
Qed.

(** X2. The banner has one comment terminator more than the library name:
    [createBanner] escapes nothing, so the banner is one block comment, closed
    only by its last two characters, exactly when the name has no
    terminator. *)
Theorem createBanner_comment_end (libraryName : string) :
  occurrences comment_end (createBanner libraryName)
    = occurrences comment_end libraryName + 1 /\
  (occurrences comment_end (createBanner libraryName) = 1
   <-> occurrences comment_end libraryName = 0) /\
  String.prefix "/*" (createBanner libraryName) = true.
Proof.
  assert (E : occurrences comment_end (createBanner libraryName)
              = occurrences comment_end libraryName + 1).
  { rewrite createBanner_parts. unfold comment_end.
    rewrite !occurrences_pair_append.
    change (last_is "*" banner_head) with false.
    change (first_is "/" banner_rest) with false.
    rewrite andb_false_r. cbn [andb].
    change (occurrences "*/" banner_head) with 0.
    change (occurrences "*/" banner_rest) with 1.
    lia. }
  split; [exact E|]. split; [lia | reflexivity].
Qed.

(** X3. The banner is 191 characters and nine line feeds longer than the
    library name: ten lines when the name is a single line. *)
Theorem createBanner_size (libraryName : string) :
  String.length (createBanner libraryName)
    = String.length libraryName + 191 /\
  count_char (ascii_of_nat 10) (createBanner libraryName)
    = count_char (ascii_of_nat 10) libraryName + 9.
Proof.
  rewrite createBanner_parts, !length_append, !count_char_append.
  change (String.length banner_head) with 7.
  change (String.length banner_rest) with 184.
  change (count_char (ascii_of_nat 10) banner_head) with 1.
  change (count_char (ascii_of_nat 10) banner_rest) with 8.
  lia.
Qed.

(** ** The paths of a package *)

(** X4. The six paths that the descriptors of a package name (two output
    directories, two bundle files, two report files) are pairwise different:
    no target writes where another one does. *)
Theorem named_paths_distinct (opts : PackageOpts) :
  NoDup (flat_map named_paths (buildConfigs path_resolve opts)).
Proof.
  change (flat_map named_paths (buildConfigs path_resolve opts))
    with (map (fun s => opts_packageDir opts ++ s)
              [ "/build/esm"; "/build/cjs";
                "/build/umd/index.development.js";
                "/build/umd/index.production.js";
                "/build/stats-html.html"; "/build/stats-react.json" ]).
  apply NoDup_map_append.
  repeat constructor; simpl; intuition discriminate.
Qed.

(** X5. Every path that a descriptor names lies under
    [<packageDir>/build/]; there are six of them. *)
Theorem named_paths_in_build (opts : PackageOpts) :
  Forall (fun p => String.prefix (opts_packageDir opts ++ "/build/") p = true)
         (flat_map named_paths (buildConfigs path_resolve opts)) /\
  List.length (flat_map named_paths (buildConfigs path_resolve opts)) = 6.
Proof.
  split; [|reflexivity].
  assert (P : forall t, String.prefix (opts_packageDir opts ++ "/build/")
                          (opts_packageDir opts ++ "/build/" ++ t) = true).
  { intros t. rewrite <- append_assoc. apply prefix_append. }
  repeat constructor; apply P.
Qed.

(** ** The pipelines of a package *)

(** X6. The four pipelines of a package start with the same two stages,
    [babelPlugin] and [nodeResolve] on [.ts], [.tsx], [.jsx]; the ESM and CJS
    pipelines have no environment replacement, minify or analyze stage, the
    UMD-DEV pipeline has only the replacement, in mode development, and the
    UMD-PROD pipeline has all three, the replacement in mode production. *)
Theorem pipelines_by_target (opts : PackageOpts) :
  Forall (fun d => firstn 2 (ro_plugins d)
                   = [ babelPlugin;
                       nodeResolve {| extensions := [".ts"; ".tsx"; ".jsx"] |} ])
         (buildConfigs path_resolve opts) /\
  map optional_stages (buildConfigs path_resolve opts)
    = [ (false, false, false); (false, false, false);
        (true, false, false); (true, true, true) ] /\
  map (fun d => flat_map (fun p => match replace_mode p with
                                   | Some m => [m]
                                   | None => []
                                   end) (ro_plugins d))
      (buildConfigs path_resolve opts)
    = [ []; []; [development]; [production] ].
Proof.
  split; [repeat constructor | split; reflexivity].
Qed.

(** X7. The UMD-DEV and UMD-PROD descriptors of a package have the same
    classifier and entry, and the same output object but for the bundle file:
    format [umd], the global symbol name [jsName], the [globals] mapping;
    their bundle files differ, and so do their pipelines. *)
Theorem umd_pair_differs_in_file_and_pipeline (opts : PackageOpts) :
  exists dev prod,
    skipn 2 (buildConfigs path_resolve opts) = [dev; prod] /\
    ro_external dev = ro_external prod /\
    ro_input dev = ro_input prod /\
    out_name (ro_output dev) = Some (opts_jsName opts) /\
    ro_output prod
      = {| format := format (ro_output dev);
           sourcemap := sourcemap (ro_output dev);
           dir := dir (ro_output dev);
           file := Some (opts_packageDir opts
                         ++ "/build/umd/index.production.js");
           out_name := out_name (ro_output dev);
           out_globals := out_globals (ro_output dev);
           preserveModules := preserveModules (ro_output dev);
           exports := exports (ro_output dev);
           out_banner := out_banner (ro_output dev) |} /\
    file (ro_output dev) <> file (ro_output prod) /\
    ro_plugins dev <> ro_plugins prod.
Proof.
  do 2 eexists. split; [reflexivity|].
  repeat split; [|discriminate].
  cbn. intros E. injection E as E. apply append_inv_head in E. discriminate.
Qed.

(** X8. Every descriptor of a package has sourcemaps on and exactly one of
    an output directory and an output file; it has a global symbol name and a
    globals mapping exactly when its format is [umd], and it sets
    [preserveModules] only together with a directory. *)
Theorem descriptor_shape (opts : PackageOpts) :
  Forall (fun d =>
            sourcemap (ro_output d) = true /\
            (dir (ro_output d) = None <-> file (ro_output d) <> None) /\
            (format (ro_output d) = "umd" <-> out_name (ro_output d) <> None) /\
            (format (ro_output d) = "umd"
             <-> out_globals (ro_output d) <> None) /\
            (preserveModules (ro_output d) = None
             \/ dir (ro_output d) <> None))
         (buildConfigs path_resolve opts).
Proof.
  repeat constructor; cbn; try discriminate; try congruence;
    intros; try discriminate; try congruence;
    solve [left; reflexivity | right; discriminate].
Qed.

(** ** Which field reaches which part of a descriptor *)

(** X9. The package name reaches the banner only: two declarations that
    agree on [packageDir], [jsName] and [entryFile] have the same descriptors
    once the banners are blanked. *)
Theorem name_reaches_banner_only (opts1 opts2 : PackageOpts) :
  opts_packageDir opts1 = opts_packageDir opts2 ->
  opts_jsName opts1 = opts_jsName opts2 ->
  opts_entryFile opts1 = opts_entryFile opts2 ->
  map without_banner (buildConfigs path_resolve opts1)
  = map without_banner (buildConfigs path_resolve opts2).
Proof.
  intros Hd Hj He. unfold buildConfigs. cbn.
  rewrite Hd, Hj, He. reflexivity.
Qed.

(** X10. The global symbol name reaches the [output.name] of the two UMD
    descriptors only: two declarations that agree on [packageDir], [name] and
    [entryFile] have the same ESM and CJS descriptors, and the same four
    descriptors once [output.name] is removed. *)
Theorem jsName_reaches_umd_name_only (opts1 opts2 : PackageOpts) :
  opts_packageDir opts1 = opts_packageDir opts2 ->
  opts_name opts1 = opts_name opts2 ->
  opts_entryFile opts1 = opts_entryFile opts2 ->
  firstn 2 (buildConfigs path_resolve opts1)
    = firstn 2 (buildConfigs path_resolve opts2) /\
  map without_name (buildConfigs path_resolve opts1)
    = map without_name (buildConfigs path_resolve opts2).
Proof.
  intros Hd Hn He. unfold buildConfigs. cbn.
  rewrite Hd, Hn, He. split; reflexivity.
Qed.

(** X11. The entry file reaches the entry path only: two declarations that
    agree on [packageDir], [name] and [jsName] have descriptors with the same
    outputs, pipelines and classifiers. *)
Theorem entryFile_reaches_input_only (opts1 opts2 : PackageOpts) :
  opts_packageDir opts1 = opts_packageDir opts2 ->
  opts_name opts1 = opts_name opts2 ->
  opts_jsName opts1 = opts_jsName opts2 ->
  map ro_output (buildConfigs path_resolve opts1)
    = map ro_output (buildConfigs path_resolve opts2) /\
  map ro_plugins (buildConfigs path_resolve opts1)
    = map ro_plugins (buildConfigs path_resolve opts2) /\
  map ro_external (buildConfigs path_resolve opts1)
    = map ro_external (buildConfigs path_resolve opts2).
Proof.
  intros Hd Hn Hj. unfold buildConfigs. cbn.
  rewrite Hd, Hn, Hj. repeat split.
Qed.

(** X12. The descriptors determine the declaration up to [outputFile] and
    the resolution of the entry: two declarations with the same descriptor
    list have the same [packageDir], [name] and [jsName], and their entry
    files resolve to the same path. *)
Theorem buildConfigs_determines_declaration (opts1 opts2 : PackageOpts) :
  buildConfigs path_resolve opts1 = buildConfigs path_resolve opts2 ->
  opts_packageDir opts1 = opts_packageDir opts2 /\
  opts_name opts1 = opts_name opts2 /\
  opts_jsName opts1 = opts_jsName opts2 /\
  path_resolve (opts_packageDir opts1) (opts_entryFile opts1)
    = path_resolve (opts_packageDir opts2) (opts_entryFile opts2).
Proof.
  intros H.
  pose proof (f_equal (map ro_input) H) as Hi.
  pose proof (f_equal (map (fun d => dir (ro_output d))) H) as Hd.
  pose proof (f_equal (map (fun d => out_banner (ro_output d))) H) as Hb.
  pose proof (f_equal (map (fun d => out_name (ro_output d))) H) as Hn.
  cbn in Hi, Hd, Hb, Hn.
  injection Hi as Hi _. injection Hd as Hd _.
  injection Hb as Hb _. injection Hn as Hn.
  apply append_inv_tail in Hd. apply append_inv_tail in Hb.
  repeat split; assumption.
Qed.

End MoreGeneratorProperties.

(** ** The further properties on ranger-core *)

(** Witness of X1: the names [ranger-core] and [@tanstack/ranger]. *)
Lemma createBanner_injective_witness :
  opts_name ranger_core <> opts_name ranger_core_other_name /\
  createBanner (opts_name ranger_core)
    <> createBanner (opts_name ranger_core_other_name).
Proof.
  assert (N : opts_name ranger_core <> opts_name ranger_core_other_name)
    by discriminate.
  split; [exact N|].
  exact (createBanner_injective _ _ N).
Defined.

(** Witness of X9: ranger-core under the names [ranger-core] and
    [@tanstack/ranger]. *)
Lemma name_reaches_banner_only_witness :
  opts_name ranger_core <> opts_name ranger_core_other_name /\
  map without_banner (buildConfigs resolve_in_repo ranger_core)
  = map without_banner (buildConfigs resolve_in_repo ranger_core_other_name).
Proof.
  split; [discriminate|].
  apply (name_reaches_banner_only resolve_in_repo
           ranger_core ranger_core_other_name); reflexivity.
Defined.

(** Witness of X10: ranger-core under the global symbol names [RangerCore]
    and [Ranger]. *)
Lemma jsName_reaches_umd_name_only_witness :
  opts_jsName ranger_core <> opts_jsName ranger_core_other_jsName /\
  firstn 2 (buildConfigs resolve_in_repo ranger_core)
    = firstn 2 (buildConfigs resolve_in_repo ranger_core_other_jsName) /\
  map without_name (buildConfigs resolve_in_repo ranger_core)
    = map without_name (buildConfigs resolve_in_repo ranger_core_other_jsName).
Proof.
  split; [discriminate|].
  apply (jsName_reaches_umd_name_only resolve_in_repo
           ranger_core ranger_core_other_jsName); reflexivity.
Defined.

(** Witness of X11: ranger-core with the entry files [src/index.jsx] and
    [src/main.tsx]. *)
Lemma entryFile_reaches_input_only_witness :
  opts_entryFile ranger_core <> opts_entryFile ranger_core_other_entry /\
  map ro_output (buildConfigs resolve_in_repo ranger_core)
    = map ro_output (buildConfigs resolve_in_repo ranger_core_other_entry) /\
  map ro_plugins (buildConfigs resolve_in_repo ranger_core)
    = map ro_plugins (buildConfigs resolve_in_repo ranger_core_other_entry) /\
  map ro_external (buildConfigs resolve_in_repo ranger_core)
    = map ro_external (buildConfigs resolve_in_repo ranger_core_other_entry).
Proof.
  split; [discriminate|].
  apply (entryFile_reaches_input_only resolve_in_repo
           ranger_core ranger_core_other_entry); reflexivity.
Defined.

(** Witness of X12: ranger-core with the output base names [ranger-core] and
    [index], which have the same descriptors. *)
Lemma buildConfigs_determines_declaration_witness :
  buildConfigs resolve_in_repo ranger_core
    = buildConfigs resolve_in_repo ranger_core_renamed /\
  opts_packageDir ranger_core = opts_packageDir ranger_core_renamed /\
  opts_name ranger_core = opts_name ranger_core_renamed /\
  opts_jsName ranger_core = opts_jsName ranger_core_renamed /\
  resolve_in_repo (opts_packageDir ranger_core) (opts_entryFile ranger_core)
    = resolve_in_repo (opts_packageDir ranger_core_renamed)
                      (opts_entryFile ranger_core_renamed).
Proof.
  assert (H : buildConfigs resolve_in_repo ranger_core
              = buildConfigs resolve_in_repo ranger_core_renamed)
    by reflexivity.
  split; [exact H|].
  exact (buildConfigs_determines_declaration resolve_in_repo
           ranger_core ranger_core_renamed H).
Defined.
